(** * Search result components and the Azure Functions overview widget

    A shallow embedding of
    - [plugins/search-react/src/extension.tsx],
    - [plugins/search-react/src/components/SearchResultGroup/SearchResultGroup.tsx]
      (which also carries [SearchResult.tsx]), and
    - the Azure Functions overview widget,
    followed by the properties proved about them.

    React elements are plain values: [createElement type props] is the
    constructor [VElement], props are finite maps from prop names to values
    (children live under the ["children"] key, as in React), and a component
    is a function from its props to the value it returns. *)

From Stdlib Require Import ZArith.
From stdpp Require Import gmap strings list fin_maps pretty.

#[local] Set Warnings "-register-all".
#[local] Open Scope string_scope.

(** ** Data of [@backstage/plugin-search-common] and friends *)

(** JSON values ([JsonValue] of [@backstage/types]).  A [JsonObject] may map
    a key to [undefined], hence the [option]; the fields are kept in
    [Object.keys] order. *)
Inductive JsonValue :=
| JNull
| JBool (b : bool)
| JNumber (n : Z)
| JString (s : string)
| JArray (items : list JsonValue)
| JObject (fields : list (string * option JsonValue)).

Abbreviation JsonObject := (list (string * option JsonValue)).

Record IndexableDocument := {
  title : string;
  text : string;
  location : string;
}.

Record ResultHighlight := {
  preTag : string;
  postTag : string;
  fields : list (string * string);
}.

(** [Result<IndexableDocument>], also exported as [SearchResult]. *)
Record Result := {
  type : string;
  document : IndexableDocument;
  highlight : option ResultHighlight;
  rank : option Z;
}.

Abbreviation SearchResult := Result.

Record SearchResultSet := {
  results : list SearchResult;
  nextPageCursor : option string;
  previousPageCursor : option string;
}.

(** [Partial<SearchQuery>]: every field may be undefined.  [extraFields] are
    the own properties of the object other than the four named ones. *)
Record PartialSearchQuery := {
  term : option string;
  types : option (list string);
  filters : option JsonObject;
  pageCursor : option string;
  extraFields : list (string * JsonValue);
}.

(** The query handed to the search API: [term], [types] and [filters] are
    always present. *)
Record SearchQuery := {
  q_term : string;
  q_types : list string;
  q_filters : JsonObject;
  q_pageCursor : option string;
  q_extraFields : list (string * JsonValue);
}.

Record Error := {
  name : string;
  message : string;
}.

(** [AsyncState<T>] of react-use: the loading / error / value flags. *)
Record AsyncState (T : Type) := {
  loading : bool;
  error : option Error;
  value : option T;
}.
Arguments loading {T} _.
Arguments error {T} _.
Arguments value {T} _.

(** Catalog entities, as far as the widget reads them. *)
Record EntityMeta := {
  annotations : option (gmap string string);
}.

Record Entity := {
  kind : string;
  metadata : EntityMeta;
}.

(** ** Components, elements and values *)

(** A component is known by its name and by the data the framework attached
    to it ([attachComponentData]); the data stored under the search
    extension key has the shape [{ component, predicate }]. *)
Inductive Component :=
| MkComponent (componentName : string)
              (componentData : gmap string ExtensionData)
with ExtensionData :=
| MkExtensionData (component : Component)
                  (predicate : option (Result -> bool)).

Definition componentData (c : Component) : gmap string ExtensionData :=
  match c with MkComponent _ d => d end.

Definition component (d : ExtensionData) : Component :=
  match d with MkExtensionData c _ => c end.

Definition predicate (d : ExtensionData) : option (Result -> bool) :=
  match d with MkExtensionData _ p => p end.

(** A component imported from a library, with no data attached. *)
Definition imported (componentName : string) : Component :=
  MkComponent componentName ∅.

Inductive ElementType :=
| Host (tag : string)
| Fragment
| Comp (c : Component).

(** The values that flow through props and out of render functions. *)
Inductive JsValue :=
| VUndefined
| VNull
| VBool (b : bool)
| VNumber (n : Z)
| VString (s : string)
| VArray (items : list JsValue)
| VObject (fields : gmap string JsValue)
| VElement (type : ElementType) (key : option string)
           (props : gmap string JsValue)
| VHandler (handler : string)
| VDomElement (id : string)
| VDocument (d : IndexableDocument)
| VHighlight (h : ResultHighlight)
| VResult (r : SearchResult)
| VError (e : Error)
| VQuery (q : PartialSearchQuery)
| VEntity (e : Entity)
| VStateFn (f : AsyncState SearchResultSet -> JsValue)
| VResultSetFn (f : SearchResultSet -> JsValue)
| VRenderItemFn (f : SearchResult -> nat -> list SearchResult -> JsValue)
| VRenderFieldFn (f : string -> JsValue)
| VJson (j : JsonValue)
| VRenderOptionFn (f : JsonValue -> nat -> list JsonValue -> JsValue).

Abbreviation ReactNode := JsValue.
Abbreviation Props := (gmap string JsValue).

(** [o.k] on an object: [undefined] when the property is missing. *)
Definition getProp (o : Props) (k : string) : JsValue :=
  default VUndefined (o !! k).

Definition optValue {A} (inj : A -> JsValue) (o : option A) : JsValue :=
  from_option inj VUndefined o.

(** JSX: [<type key=.. {...props}>children</type>].  No child leaves
    [props.children] unset, one child is stored as it is, several as an
    array. *)
Definition withChildren (props : Props) (children : list JsValue) : Props :=
  match children with
  | [] => props
  | [c] => <["children" := c]> props
  | cs => <["children" := VArray cs]> props
  end.

Definition jsx (type : ElementType) (props : Props)
    (children : list JsValue) : JsValue :=
  VElement type None (withChildren props children).

Definition jsxKey (type : ElementType) (key : string) (props : Props)
    (children : list JsValue) : JsValue :=
  VElement type (Some key) (withChildren props children).

(** [React.createElement(type, props)]. *)
Definition createElement (c : Component) (props : Props) : JsValue :=
  VElement (Comp c) None props.

Definition isValidElement (node : ReactNode) : bool :=
  match node with
  | VElement _ _ _ => true
  | _ => false
  end.

(** JavaScript truthiness of the values tested by the components. *)
Definition truthyString (s : string) : bool :=
  negb (String.eqb s "").

(** Modelled from the spec: [getComponentData(node, key)] of
    [@backstage/core-plugin-api] is not part of the sources.  It reads the
    mark of an extension element: the data attached under [key] to the
    component the element was created from; host elements carry none. *)
Definition getComponentData (node : ReactNode) (key : string)
    : option ExtensionData :=
  match node with
  | VElement (Comp c) _ _ => componentData c !! key
  | _ => None
  end.

(** ** [extension.tsx] *)

Definition SEARCH_RESULT_LIST_ITEM_EXTENSION : string :=
  "search.results.list.items.extensions.v1".

Record SearchResultListItemExtensionOptions := {
  opt_name : string;
  opt_component : Component;
  opt_predicate : option (Result -> bool);
}.

(** Modelled from the spec: [createReactExtension({ name, component, data })]
    of [@backstage/core-plugin-api] is not part of the sources.  It registers
    a component called [name] with every entry of [data] attached as
    component data. *)
Definition createReactExtension (name : string)
    (data : gmap string ExtensionData) : Component :=
  MkComponent name data.

Definition createSearchResultListItemExtension
    (options : SearchResultListItemExtensionOptions) : Component :=
  let name := opt_name options in
  let component := opt_component options in
  let predicate := default (fun _ => true) (opt_predicate options) in
  createReactExtension name
    {[ SEARCH_RESULT_LIST_ITEM_EXTENSION :=
         MkExtensionData component (Some predicate) ]}.

(** The element returned for a matching extension [element]. *)
Definition renderExtension (data : ExtensionData) (props : Props)
    (result : Result) : JsValue :=
  let onClick := getProp props "onClick" in
  let onKeyDown := getProp props "onKeyDown" in
  let rest := delete "onKeyDown" (delete "onClick" props) in
  jsx (Host "div")
    {[ "role" := VString "button";
       "tabIndex" := VNumber 0;
       "onClick" := onClick;
       "onKeyDown" := onKeyDown ]}
    [ createElement (component data)
        (rest ∪ {[ "rank" := optValue VNumber (rank result);
                   "highlight" := optValue VHighlight (highlight result);
                   "result" := VDocument (document result) ]}) ].

(** [predicate?.(result)], read as a condition. *)
Definition callPredicate (data : ExtensionData) (result : Result) : bool :=
  match predicate data with
  | Some p => p result
  | None => false
  end.

Fixpoint findSearchResultListItemExtensionElement
    (elements : list ReactNode) (result : Result) : JsValue :=
  match elements with
  | [] => VNull
  | element :: elements' =>
      if negb (isValidElement element) then
        findSearchResultListItemExtensionElement elements' result
      else
        match getComponentData element SEARCH_RESULT_LIST_ITEM_EXTENSION with
        | None => findSearchResultListItemExtensionElement elements' result
        | Some data =>
            if negb (callPredicate data result) then
              findSearchResultListItemExtensionElement elements' result
            else
              match element with
              | VElement _ _ props => renderExtension data props result
              | _ => VNull
              end
        end
  end.

(** The element collection of [@backstage/core-plugin-api] is not part of the
    sources: [selectByComponentData children key] stands for
    [useElementFilter(children, c => c.selectByComponentData({ key }).getElements())]
    and is a parameter. *)
Section ExtensionHooks.

Variable selectByComponentData : ReactNode -> string -> list ReactNode.

Definition useSearchResultListItemExtensionElements (children : ReactNode)
    : list ReactNode :=
  selectByComponentData children SEARCH_RESULT_LIST_ITEM_EXTENSION.

(** [a ?? b]. *)
Definition nullish (a b : JsValue) : JsValue :=
  match a with
  | VUndefined | VNull => b
  | _ => a
  end.

Definition DefaultResultListItem : Component := imported "DefaultResultListItem".

Definition useSearchResultListItemExtensionRenderer (children : ReactNode)
    (result : Result) : JsValue :=
  let elements := useSearchResultListItemExtensionElements children in
  let element := findSearchResultListItemExtensionElement elements result in
  nullish element
    (jsx (Comp DefaultResultListItem)
       {[ "rank" := optValue VNumber (rank result);
          "highlight" := optValue VHighlight (highlight result);
          "result" := VDocument (document result) ]}
       []).

End ExtensionHooks.

(** ** [SearchResult.tsx] *)

Definition SearchResultApiC : Component := imported "SearchResultApi".
Definition SearchResultContextC : Component := imported "SearchResultContext".
Definition SearchResultStateC : Component := imported "SearchResultState".
Definition Progress : Component := imported "Progress".
Definition ResponseErrorPanel : Component := imported "ResponseErrorPanel".
Definition EmptyState : Component := imported "EmptyState".
Definition List_ : Component := imported "List".
Definition AnalyticsContext : Component := imported "AnalyticsContext".

Abbreviation RenderState := (AsyncState SearchResultSet -> JsValue).

(** The value of [useSearch()], as far as [SearchResultContext] reads it. *)
Record SearchContextValue := {
  result : AsyncState SearchResultSet;
}.

Definition SearchResultContext (context : SearchContextValue)
    (children : RenderState) : JsValue :=
  let state := result context in
  children state.

(** The argument [SearchResultApi] builds for [searchApi.query]:
    [const { term = '', types = [], filters = {}, ...rest } = query] and then
    [{ ...rest, term, types, filters }]. *)
Definition queryWithDefaults (query : PartialSearchQuery) : SearchQuery :=
  let term := default "" (term query) in
  let types := default [] (types query) in
  let filters := default [] (filters query) in
  {| q_term := term;
     q_types := types;
     q_filters := filters;
     q_pageCursor := pageCursor query;
     q_extraFields := extraFields query |}.

(** A prop object: React compares dependencies by identity, so the object
    carries its address next to its contents. *)
Record QueryProp := {
  address : nat;
  contents : PartialSearchQuery;
}.

(** Modelled from the spec: the [useAsync] hook of react-use is not part of
    the sources.  Per the spec it issues one asynchronous fetch per change of
    its inputs and exposes loading / error / value flags: it starts in the
    loading state, runs its callback after a render whose dependency list
    differs from the one of the previous run, and stores the outcome of the
    latest call when that call settles. *)
Record UseAsync := {
  lastDeps : option nat;
  lastCallId : nat;
  asyncState : AsyncState SearchResultSet;
}.

Definition useAsyncInitial : UseAsync :=
  {| lastDeps := None;
     lastCallId := 0;
     asyncState := {| loading := true; error := None; value := None |} |}.

Definition depsChanged (h : UseAsync) (dep : nat) : bool :=
  match lastDeps h with
  | Some d => negb (Nat.eqb d dep)
  | None => true
  end.

Inductive Outcome :=
| Resolved (set : SearchResultSet)
| Rejected (err : Error).

Definition settledState (o : Outcome) : AsyncState SearchResultSet :=
  match o with
  | Resolved v => {| loading := false; error := None; value := Some v |}
  | Rejected e => {| loading := false; error := Some e; value := None |}
  end.

(** What happens to a mounted [SearchResultApi]: React renders it with some
    props, or a call made earlier settles. *)
Inductive Event :=
| Render (query : QueryProp) (children : RenderState)
| Settle (callId : nat) (outcome : Outcome).

(** What the component does in response: the value returned by a render, and
    the calls made to [searchApi.query]. *)
Record Trace := {
  rendered : list JsValue;
  queried : list (nat * SearchQuery);
}.

Definition emptyTrace : Trace := {| rendered := []; queried := [] |}.

(** One render of [SearchResultApi]: [children(state)] is returned, and the
    effect of [useAsync(..., [query])] calls [searchApi.query] when [query]
    is not the object seen by the previous run. *)
Definition SearchResultApi (h : UseAsync) (query : QueryProp)
    (children : RenderState) : JsValue * UseAsync * list (nat * SearchQuery) :=
  let state := asyncState h in
  let out := children state in
  if depsChanged h (address query) then
    let callId := S (lastCallId h) in
    (out,
     {| lastDeps := Some (address query);
        lastCallId := callId;
        asyncState := {| loading := true;
                         error := error state;
                         value := value state |} |},
     [(callId, queryWithDefaults (contents query))])
  else (out, h, []).

Definition settle (h : UseAsync) (callId : nat) (o : Outcome) : UseAsync :=
  if Nat.eqb callId (lastCallId h) then
    {| lastDeps := lastDeps h;
       lastCallId := lastCallId h;
       asyncState := settledState o |}
  else h.

Definition step (st : UseAsync * Trace) (e : Event) : UseAsync * Trace :=
  let '(h, t) := st in
  match e with
  | Render query children =>
      let '(out, h', calls) := SearchResultApi h query children in
      (h', {| rendered := (rendered t ++ [out])%list;
              queried := (queried t ++ calls)%list |})
  | Settle callId o => (settle h callId o, t)
  end.

Definition run (events : list Event) : UseAsync * Trace :=
  fold_left step events (useAsyncInitial, emptyTrace).

(** The number of renders whose [query] is not the object of the render
    before; the first render counts. *)
Fixpoint queryChanges (prev : option nat) (events : list Event) : nat :=
  match events with
  | [] => 0
  | Render query _ :: events' =>
      (if match prev with
          | Some d => negb (Nat.eqb d (address query))
          | None => true
          end
       then 1 else 0) + queryChanges (Some (address query)) events'
  | Settle _ _ :: events' => queryChanges prev events'
  end.

Record SearchResultStateProps := {
  sr_query : option PartialSearchQuery;
  sr_children : RenderState;
}.

Definition SearchResultState (props : SearchResultStateProps) : JsValue :=
  let query := sr_query props in
  let children := sr_children props in
  match query with
  | Some query =>
      jsx (Comp SearchResultApiC) {[ "query" := VQuery query ]}
        [VStateFn children]
  | None => jsx (Comp SearchResultContextC) ∅ [VStateFn children]
  end.

Record SearchResultProps := {
  srp_query : option PartialSearchQuery;
  srp_children : JsValue;
  srp_noResultsComponent : option JsValue;
  srp_rest : Props;
}.

(** [<Fragment key={index}>{child}</Fragment>]. *)
Definition keyedFragment (index : nat) (child : JsValue) : JsValue :=
  jsxKey Fragment (pretty index) ∅ [child].

Definition errorPanel (error : Error) : JsValue :=
  jsx (Comp ResponseErrorPanel)
    {[ "title" := VString "Error encountered while fetching search results";
       "error" := VError error ]}
    [].

Definition defaultNoResultsComponent : JsValue :=
  jsx (Comp EmptyState)
    {[ "missing" := VString "data";
       "title" := VString "Sorry, no results were found" ]}
    [].

Section SearchResult.

Variable selectByComponentData : ReactNode -> string -> list ReactNode.

(** The render function [SearchResultComponent] hands to
    [SearchResultState]. *)
Definition SearchResultComponent_render (props : SearchResultProps)
    (state : AsyncState SearchResultSet) : JsValue :=
  let children := srp_children props in
  let noResultsComponent :=
    default defaultNoResultsComponent (srp_noResultsComponent props) in
  let rest := srp_rest props in
  let renderResultItem :=
    useSearchResultListItemExtensionRenderer selectByComponentData children in
  if loading state then jsx (Comp Progress) ∅ []
  else
    match error state with
    | Some error => errorPanel error
    | None =>
        match value state with
        | None => noResultsComponent
        | Some value =>
            if Nat.eqb (length (results value)) 0 then noResultsComponent
            else
              match children with
              | VResultSetFn children => children value
              | _ =>
                  jsx (Comp List_) rest
                    [VArray
                       (imap (fun index result =>
                                keyedFragment index (renderResultItem result))
                          (results value))]
              end
        end
    end.

Definition SearchResultComponent (props : SearchResultProps) : JsValue :=
  jsx (Comp SearchResultStateC)
    {[ "query" := optValue VQuery (srp_query props) ]}
    [VStateFn (SearchResultComponent_render props)].

End SearchResult.

(** ** [SearchResultGroup.tsx] *)

(** [String(value)] on a JSON value. *)
Fixpoint jsString (v : JsonValue) : string :=
  match v with
  | JNull => "null"
  | JBool true => "true"
  | JBool false => "false"
  | JNumber n => pretty n
  | JString s => s
  | JArray items =>
      String.concat ","
        ((fix each (l : list JsonValue) : list string :=
            match l with
            | [] => []
            | JNull :: l' => "" :: each l'
            | x :: l' => jsString x :: each l'
            end) items)
  | JObject _ => "[object Object]"
  end.

(** Modelled from the spec: the [qs] package is not part of the sources.
    [stringify] stands for [qs.stringify(obj, { arrayFormat: 'brackets' })]
    on JSON data: a field that is undefined is omitted, [null] gives the
    empty value, a primitive the pair [key=value] with both sides
    percent-encoded, an array its items under [key[]], an object its fields
    under [key[field]]; the pairs are joined by [&].  The percent-encoder is
    a parameter. *)
Section Qs.

Variable encode : string -> string.

Fixpoint stringifyValue (prefix : string) (v : JsonValue) : list string :=
  match v with
  | JNull => [encode prefix ++ "=" ++ encode ""]
  | JBool _ | JNumber _ | JString _ =>
      [encode prefix ++ "=" ++ encode (jsString v)]
  | JArray items =>
      (fix each (l : list JsonValue) : list string :=
         match l with
         | [] => []
         | x :: l' => (stringifyValue (prefix ++ "[]") x ++ each l')%list
         end) items
  | JObject fields =>
      (fix each (l : list (string * option JsonValue)) : list string :=
         match l with
         | [] => []
         | (k, None) :: l' => each l'
         | (k, Some x) :: l' =>
             (stringifyValue (prefix ++ "[" ++ k ++ "]") x ++ each l')%list
         end) fields
  end.

(** The pairs one top-level field contributes. *)
Definition stringifyField (key : string) (v : option JsonValue)
    : list string :=
  match v with
  | None => []
  | Some v => stringifyValue key v
  end.

Definition stringify (obj : list (string * option JsonValue)) : string :=
  String.concat "&"
    (concat (map (fun kv => stringifyField (fst kv) (snd kv)) obj)).

(** The object [SearchResultGroup] passes to [qs.stringify]. *)
Definition linkQuery (query : option PartialSearchQuery)
    : list (string * option JsonValue) :=
  [ ("query", JString <$> (query ≫= term));
    ("types", (fun ts => JArray (JString <$> ts)) <$> (query ≫= types));
    ("filters", JObject <$> (query ≫= filters));
    ("pageCursor", JString <$> (query ≫= pageCursor)) ].

(** The target of the "See all" link. *)
Definition to (query : option PartialSearchQuery) : string :=
  "/search?" ++ stringify (linkQuery query).

End Qs.

Definition ListSubheader : Component := imported "ListSubheader".
Definition ListItem : Component := imported "ListItem".
Definition Menu : Component := imported "Menu".
Definition MenuItem : Component := imported "MenuItem".
Definition Chip : Component := imported "Chip".
Definition Typography : Component := imported "Typography".
Definition Link : Component := imported "Link".
Definition AddIcon : Component := imported "AddIcon".
Definition ArrowRightIcon : Component := imported "ArrowRightIcon".
Definition SearchResultGroupLayoutC : Component :=
  imported "SearchResultGroupLayout".

(** The class names [useStyles()] returns. *)
Record Classes := {
  listSubheader : string;
  listSubheaderName : string;
  listSubheaderChip : string;
  listSubheaderFilter : string;
  listSubheaderLink : string;
  listSubheaderLinkIcon : string;
}.

Abbreviation RenderItem := (SearchResult -> nat -> list SearchResult -> JsValue).
Abbreviation RenderOption := (JsonValue -> nat -> list JsonValue -> JsValue).

(** [SearchResultGroupLayoutProps<FilterOption>], with JSON values as filter
    options; [gl_rest] holds the remaining [ListProps]. *)
Record SearchResultGroupLayoutProps := {
  gl_loading : option bool;
  gl_error : option Error;
  gl_icon : JsValue;
  gl_title : ReactNode;
  gl_titleProps : option Props;
  gl_link : option ReactNode;
  gl_linkProps : option Props;
  gl_filterOptions : option (list JsonValue);
  gl_renderFilterOption : option RenderOption;
  gl_filterFields : option (list string);
  gl_renderFilterField : option (string -> JsValue);
  gl_resultItems : option (list SearchResult);
  gl_renderResultItem : option RenderItem;
  gl_noResultsComponent : option ReactNode;
  gl_rest : Props;
}.

Definition defaultRenderFilterOption : RenderOption :=
  fun filterOption _ _ =>
    jsxKey (Comp MenuItem) (jsString filterOption)
      {[ "value" := VString (jsString filterOption) ]}
      [VJson filterOption].

Definition defaultRenderResultItem : RenderItem :=
  fun resultItem _ _ =>
    jsxKey (Comp DefaultResultListItem) (location (document resultItem))
      {[ "result" := VDocument (document resultItem) ]}
      [].

(** [classes] is the value of [useStyles()] and [anchorEl] the current value
    of the [useState] cell. *)
Definition SearchResultGroupLayout (classes : Classes)
    (anchorEl : option string) (props : SearchResultGroupLayoutProps)
    : JsValue :=
  let loading := gl_loading props in
  let error := gl_error props in
  let icon := gl_icon props in
  let title := gl_title props in
  let titleProps := default ∅ (gl_titleProps props) in
  let link :=
    default
      (jsx Fragment ∅
         [ VString "See all";
           jsx (Comp ArrowRightIcon)
             {[ "className" := VString (listSubheaderLinkIcon classes) ]} [] ])
      (gl_link props) in
  let linkProps := default ∅ (gl_linkProps props) in
  let filterOptions := gl_filterOptions props in
  let renderFilterOption :=
    default defaultRenderFilterOption (gl_renderFilterOption props) in
  let filterFields := gl_filterFields props in
  let renderFilterField := gl_renderFilterField props in
  let resultItems := gl_resultItems props in
  let renderResultItem :=
    default defaultRenderResultItem (gl_renderResultItem props) in
  let noResultsComponent :=
    default defaultNoResultsComponent (gl_noResultsComponent props) in
  let rest := gl_rest props in
  if default false loading then jsx (Comp Progress) ∅ []
  else
    (* [if (error) { <ResponseErrorPanel ... />; }]: the element is built
       and dropped, control falls through to the list below. *)
    let _ := errorPanel <$> error in
    jsx (Comp List_) rest
      [ jsx (Comp ListSubheader)
          {[ "className" := VString (listSubheader classes) ]}
          [ icon;
            jsx (Comp Typography)
              (titleProps ∪
               {[ "className" := VString (listSubheaderName classes);
                  "component" := VString "strong" ]})
              [title];
            match filterOptions with
            | Some _ =>
                jsx (Comp Chip)
                  {[ "className" := VString (listSubheaderChip classes);
                     "component" := VString "button";
                     "icon" := jsx (Comp AddIcon) ∅ [];
                     "variant" := VString "outlined";
                     "label" := VString "Add filter";
                     "aria-controls" := VString "filters-menu";
                     "aria-haspopup" := VString "true";
                     "onClick" := VHandler "handleClick" ]}
                  []
            | None => VNull
            end;
            match filterOptions with
            | Some filterOptions =>
                jsx (Comp Menu)
                  {[ "id" := VString "filters-menu";
                     "anchorEl" := from_option VDomElement VNull anchorEl;
                     "open" := VBool (bool_decide (is_Some anchorEl));
                     "onClose" := VHandler "handleClose";
                     "onClick" := VHandler "handleClose";
                     "keepMounted" := VBool true ]}
                  [VArray
                     (imap (fun index option =>
                              renderFilterOption option index filterOptions)
                        filterOptions)]
            | None => VNull
            end;
            match filterFields with
            | Some filterFields =>
                VArray
                  (map (fun filterField =>
                          match renderFilterField with
                          | Some render => nullish (render filterField) VNull
                          | None => VNull
                          end)
                     filterFields)
            | None => VUndefined
            end;
            jsx (Comp Link)
              (linkProps ∪
               {[ "className" := VString (listSubheaderLink classes);
                  "to" := VString "/search" ]})
              [link] ];
        match resultItems with
        | Some (_ :: _ as resultItems) =>
            VArray
              (imap (fun index value =>
                       keyedFragment index
                         (renderResultItem value index resultItems))
                 resultItems)
        | _ => jsx (Comp ListItem) ∅ [noResultsComponent]
        end ].

(** [SearchResultGroupProps<FilterOption>]; [gp_rest] holds the layout props
    that are passed through ([icon], [title], ...). *)
Record SearchResultGroupProps := {
  gp_query : option PartialSearchQuery;
  gp_children : ReactNode;
  gp_linkProps : option Props;
  gp_disableRenderingWithNoResults : option bool;
  gp_renderResultItem : option RenderItem;
  gp_rest : Props;
}.

Section SearchResultGroup.

Variable encode : string -> string.
Variable selectByComponentData : ReactNode -> string -> list ReactNode.

(** [value?.results?.length], read as a condition. *)
Definition hasResults (value : option SearchResultSet) : bool :=
  match value with
  | Some value => negb (Nat.eqb (length (results value)) 0)
  | None => false
  end.

(** The render function [SearchResultGroup] hands to [SearchResultState]. *)
Definition SearchResultGroup_render (props : SearchResultGroupProps)
    (state : AsyncState SearchResultSet) : JsValue :=
  let query := gp_query props in
  let children := gp_children props in
  let linkProps := default ∅ (gp_linkProps props) in
  let disableRenderingWithNoResults :=
    gp_disableRenderingWithNoResults props in
  let renderResultItem := gp_renderResultItem props in
  let rest := gp_rest props in
  let to := to encode query in
  let defaultRenderResultItem : RenderItem :=
    fun result _ _ =>
      useSearchResultListItemExtensionRenderer selectByComponentData
        children result in
  if negb (hasResults (value state))
     && default false disableRenderingWithNoResults
  then VNull
  else
    VElement (Comp SearchResultGroupLayoutC) None
      (<["renderResultItem" :=
           VRenderItemFn (default defaultRenderResultItem renderResultItem)]>
       (<["resultItems" :=
            optValue (fun v => VArray (VResult <$> results v)) (value state)]>
        (<["filterFields" :=
             VArray (VString <$>
                       (fst <$> default [] (query ≫= filters)))]>
         (<["linkProps" := VObject (linkProps ∪ {[ "to" := VString to ]})]>
          (<["error" := optValue VError (error state)]>
           (<["loading" := VBool (loading state)]> rest)))))).

Definition SearchResultGroup (props : SearchResultGroupProps) : JsValue :=
  jsx (Comp AnalyticsContext)
    {[ "attributes" :=
         VObject {[ "pluginId" := VString "search";
                    "extension" := VString "SearchResultGroup" ]} ]}
    [ jsx (Comp SearchResultStateC)
        {[ "query" := optValue VQuery (gp_query props) ]}
        [VStateFn (SearchResultGroup_render props)] ].

End SearchResultGroup.

(** ** The Azure Functions overview widget *)

Definition MissingAnnotationEmptyState : Component :=
  imported "MissingAnnotationEmptyState".
Definition ErrorBoundary : Component := imported "ErrorBoundary".
Definition AzureFunctionsOverviewC : Component :=
  imported "AzureFunctionsOverview".

(** [AZURE_FUNCTIONS_ANNOTATION] is declared in
    [hooks/useServiceEntityAnnotations], outside the sources: it is a
    parameter here. *)
Section AzureFunctions.

Variable AZURE_FUNCTIONS_ANNOTATION : string.

(** [entity?.metadata.annotations?.[AZURE_FUNCTIONS_ANNOTATION]]: the
    annotation, or nothing when a link of the chain is undefined. *)
Definition isAzureFunctionsAvailable (entity : option Entity)
    : option string :=
  entity ≫= fun entity =>
  annotations (metadata entity) ≫= fun annotations =>
  annotations !! AZURE_FUNCTIONS_ANNOTATION.

(** [entity] is the entity [useEntity()] returns. *)
Definition AzureFunctionsOverviewWidget (entity : option Entity) : JsValue :=
  if negb (from_option truthyString false (isAzureFunctionsAvailable entity))
  then
    jsx (Comp MissingAnnotationEmptyState)
      {[ "annotation" := VString AZURE_FUNCTIONS_ANNOTATION ]}
      []
  else
    jsx (Comp ErrorBoundary) ∅
      [ jsx (Comp AzureFunctionsOverviewC)
          {[ "entity" := optValue VEntity entity ]}
          [] ].

End AzureFunctions.

(** ** [SearchResultGroup.tsx]: the filter fields *)

Definition SearchResultGroupFilterFieldLayoutC : Component :=
  imported "SearchResultGroupFilterFieldLayout".
Definition Select : Component := imported "Select".
Definition InputBase : Component := imported "InputBase".

(** A destructuring default, [{ k = d } = props]: it applies to [undefined]
    only. *)
Definition withDefault (v d : JsValue) : JsValue :=
  match v with
  | VUndefined => d
  | _ => v
  end.

(** [props] is the props object the component receives; [classes] is the
    value of [useStyles()]. *)
Definition SearchResultGroupFilterFieldLayout (classes : Classes)
    (props : Props) : JsValue :=
  let label := getProp props "label" in
  let children := getProp props "children" in
  let rest := delete "children" (delete "label" props) in
  jsx (Comp Chip)
    (<["label" := jsx Fragment ∅ [label; VString ": "; children]]>
     (<["variant" := VString "outlined"]>
      (<["className" := VString (listSubheaderFilter classes)]> rest)))
    [].

(** [root] is the class name [useSearchResultGroupTextFilterStyles()]
    returns. *)
Definition SearchResultGroupTextFilterField (root : string) (props : Props)
    : JsValue :=
  let label := getProp props "label" in
  let value := withDefault (getProp props "value") (VString "None") in
  let onDelete := getProp props "onDelete" in
  jsx (Comp SearchResultGroupFilterFieldLayoutC)
    {[ "label" := label; "onDelete" := onDelete ]}
    [ jsx (Comp Typography)
        {[ "role" := VString "textbox";
           "component" := VString "span";
           "className" := VString root;
           "onChange" := VHandler "handleChange";
           "contentEditable" := VBool true;
           "suppressContentEditableWarning" := VBool true ]}
        [value] ].

(** [root] is the class name [useSearchResultGroupSelectFilterStyles()]
    returns. *)
Definition SearchResultGroupSelectFilterField (root : string) (props : Props)
    : JsValue :=
  let label := getProp props "label" in
  let value := withDefault (getProp props "value") (VString "none") in
  let onDelete := getProp props "onDelete" in
  let children := getProp props "children" in
  jsx (Comp SearchResultGroupFilterFieldLayoutC)
    {[ "label" := label; "onDelete" := onDelete ]}
    [ jsx (Comp Select)
        {[ "className" := VString root;
           "value" := value;
           "onChange" := VHandler "handleChange";
           "input" := jsx (Comp InputBase) ∅ [];
           "IconComponent" := VHandler "NullIcon" ]}
        [ jsx (Comp MenuItem) {[ "value" := VString "none" ]}
            [VString "None"];
          children ] ].

(** ** Vocabulary of the properties *)

(** An element of the list qualifies for [result]: it is a valid element,
    its component carries the extension data, and the predicate stored there
    accepts [result]. *)
Definition qualifies (result : Result) (node : ReactNode) : bool :=
  isValidElement node &&
  match getComponentData node SEARCH_RESULT_LIST_ITEM_EXTENSION with
  | Some data => callPredicate data result
  | None => false
  end.

(** The rendered extension of a qualifying element: a focusable button
    wrapper around the extension's component, which receives the result and
    the element's remaining props. *)
Definition renderedExtension (result : Result) (node : ReactNode) : JsValue :=
  match node, getComponentData node SEARCH_RESULT_LIST_ITEM_EXTENSION with
  | VElement _ _ props, Some data => renderExtension data props result
  | _, _ => VNull
  end.

(** The predicate an extension works with. *)
Definition effectivePredicate (options : SearchResultListItemExtensionOptions)
    : Result -> bool :=
  match opt_predicate options with
  | Some p => p
  | None => fun _ => true
  end.

(** The element every result falls back to. *)
Definition defaultListItem (result : Result) : JsValue :=
  VElement (Comp DefaultResultListItem) None
    {[ "rank" := optValue VNumber (rank result);
       "highlight" := optValue VHighlight (highlight result);
       "result" := VDocument (document result) ]}.

(** An event that leaves the [query] prop at the object with address [a]. *)
Definition keepsQuery (a : nat) (e : Event) : Prop :=
  match e with
  | Render query _ => address query = a
  | Settle _ _ => True
  end.

(** Layout props with the [error] prop replaced. *)
Definition withError (props : SearchResultGroupLayoutProps)
    (err : option Error) : SearchResultGroupLayoutProps :=
  {| gl_loading := gl_loading props;
     gl_error := err;
     gl_icon := gl_icon props;
     gl_title := gl_title props;
     gl_titleProps := gl_titleProps props;
     gl_link := gl_link props;
     gl_linkProps := gl_linkProps props;
     gl_filterOptions := gl_filterOptions props;
     gl_renderFilterOption := gl_renderFilterOption props;
     gl_filterFields := gl_filterFields props;
     gl_renderFilterField := gl_renderFilterField props;
     gl_resultItems := gl_resultItems props;
     gl_renderResultItem := gl_renderResultItem props;
     gl_noResultsComponent := gl_noResultsComponent props;
     gl_rest := gl_rest props |}.

Definition fetchFailed : Error :=
  {| name := "Error"; message := "search backend unavailable" |}.

(** A layout that is not loading and was given an error. *)
Definition failingLayoutProps : SearchResultGroupLayoutProps :=
  {| gl_loading := Some false;
     gl_error := Some fetchFailed;
     gl_icon := VNull;
     gl_title := VString "Documentation";
     gl_titleProps := None;
     gl_link := None;
     gl_linkProps := None;
     gl_filterOptions := None;
     gl_renderFilterOption := None;
     gl_filterFields := None;
     gl_renderFilterField := None;
     gl_resultItems := None;
     gl_renderResultItem := None;
     gl_noResultsComponent := None;
     gl_rest := ∅ |}.

(** The entity carries a non-empty annotation under [key]. *)
Definition annotated (key : string) (entity : option Entity) : Prop :=
  ∃ e anns v,
    entity = Some e ∧ annotations (metadata e) = Some anns ∧
    anns !! key = Some v ∧ v ≠ "".

(** ** Sample data *)

Definition techDocsPredicate (r : Result) : bool := String.eqb (type r) "techdocs".

Definition techDocsExtension : Component :=
  createSearchResultListItemExtension
    {| opt_name := "TechDocsSearchResultListItem";
       opt_component := imported "TechDocsItem";
       opt_predicate := Some techDocsPredicate |}.

Definition catchAllExtension : Component :=
  createSearchResultListItemExtension
    {| opt_name := "CatchAllSearchResultListItem";
       opt_component := imported "CatchAllItem";
       opt_predicate := None |}.

Definition catalogResult : Result :=
  {| type := "software-catalog";
     document := {| title := "petstore"; text := "The pet store API";
                    location := "/catalog/default/api/petstore" |};
     highlight := None;
     rank := Some 1%Z |}.

Definition docsResult : Result :=
  {| type := "techdocs";
     document := {| title := "Getting started"; text := "Install the CLI";
                    location := "/docs/default/component/cli" |};
     highlight := None;
     rank := Some 2%Z |}.

Definition extensionChildren : list ReactNode :=
  [ VString "plain text";
    jsx (Host "span") ∅ [];
    jsx (Comp techDocsExtension) {[ "onClick" := VHandler "open" ]} [];
    jsx (Comp catchAllExtension) {[ "lineClamp" := VNumber 3 ]} [] ].

Definition hiddenGroupProps : SearchResultGroupProps :=
  {| gp_query := Some {| term := Some "pet"; types := Some ["software-catalog"];
                         filters := None; pageCursor := None;
                         extraFields := [] |};
     gp_children := VUndefined;
     gp_linkProps := None;
     gp_disableRenderingWithNoResults := Some true;
     gp_renderResultItem := None;
     gp_rest := {[ "title" := VString "Catalog" ]} |}.

Definition petQuery : PartialSearchQuery :=
  {| term := Some "pet"; types := None; filters := None; pageCursor := None;
     extraFields := [] |}.

Definition petQueryProp : QueryProp := {| address := 1; contents := petQuery |}.

Definition showLoading : RenderState := λ state, VBool (loading state).

Definition functionsEntity : Entity :=
  {| kind := "Component";
     metadata :=
       {| annotations :=
            Some {[ "portal.azure.com/functions-name" := "petstore-func" ]} |} |}.

(** The props of an element. *)
Definition propsOf (node : ReactNode) : Props :=
  match node with
  | VElement _ _ props => props
  | _ => ∅
  end.

Definition isRender (e : Event) : bool :=
  match e with
  | Render _ _ => true
  | Settle _ _ => false
  end.

(** The props [SearchResultGroup] sets on the layout itself. *)
Definition groupLayoutKeys : list string :=
  ["loading"; "error"; "linkProps"; "filterFields"; "resultItems";
   "renderResultItem"].

(** [entity] with one more annotation. *)
Definition withAnnotation (k v : string) (entity : option Entity)
    : option Entity :=
  (λ e, {| kind := kind e;
           metadata :=
             {| annotations :=
                  (λ anns, <[k := v]> anns) <$> annotations (metadata e) |} |})
  <$> entity.

Definition emptyAnnotationEntity : Entity :=
  {| kind := "Component";
     metadata :=
       {| annotations :=
            Some {[ "portal.azure.com/functions-name" := "" ]} |} |}.

Definition twoResults : SearchResultSet :=
  {| results := [catalogResult; docsResult];
     nextPageCursor := None;
     previousPageCursor := None |}.

Definition loadedState : AsyncState SearchResultSet :=
  {| loading := false; error := None; value := Some twoResults |}.



Definition linkedGroupProps : SearchResultGroupProps :=
  {| gp_query := Some petQuery;
     gp_children := VUndefined;
     gp_linkProps := Some {[ "to" := VString "/catalog";
                             "underline" := VString "hover" ]};
     gp_disableRenderingWithNoResults := None;
     gp_renderResultItem := None;
     gp_rest := {[ "title" := VString "Catalog";
                   "loading" := VBool true ]} |}.

(** * Properties *)

(** ** [extension.tsx] *)

Lemma renderExtension_element data props result :
  ∃ p, renderExtension data props result = VElement (Host "div") None p.
Proof. unfold renderExtension, jsx. eauto. Qed.

Lemma renderedExtension_element result node :
  qualifies result node = true →
  ∃ p, renderedExtension result node = VElement (Host "div") None p.
Proof.
  unfold qualifies, renderedExtension.
  destruct node as [| | | | | | |ty key props| | | | | | | | | | | | | |];
    try (simpl; discriminate).
  destruct (getComponentData (VElement ty key props)
              SEARCH_RESULT_LIST_ITEM_EXTENSION); [|discriminate].
  intros _. apply renderExtension_element.
Qed.

Lemma renderedExtension_data ty key props data result :
  getComponentData (VElement ty key props) SEARCH_RESULT_LIST_ITEM_EXTENSION =
    Some data →
  renderedExtension result (VElement ty key props) =
  renderExtension data props result.
Proof. intros Hdata. unfold renderedExtension. by rewrite Hdata. Qed.

Lemma find_cons element elements result :
  findSearchResultListItemExtensionElement (element :: elements) result =
  if qualifies result element then renderedExtension result element
  else findSearchResultListItemExtensionElement elements result.
Proof.
  unfold qualifies, renderedExtension.
  destruct element as [| | | | | | |ty key props| | | | | | | | | | | | | |];
    try reflexivity.
  cbn [findSearchResultListItemExtensionElement isValidElement negb andb].
  destruct (getComponentData (VElement ty key props)
              SEARCH_RESULT_LIST_ITEM_EXTENSION) as [data|]; [|done].
  by destruct (callPredicate data result).
Qed.

Lemma find_null_or_element elements result :
  findSearchResultListItemExtensionElement elements result = VNull ∨
  ∃ p, findSearchResultListItemExtensionElement elements result =
       VElement (Host "div") None p.
Proof.
  induction elements as [|element elements IH]; [by left|].
  rewrite find_cons. destruct (qualifies result element) eqn:Hq; [|done].
  right. by apply renderedExtension_element.
Qed.

(** C1. [findSearchResultListItemExtensionElement] is a linear first-match
    dispatch: when the element at position [i] qualifies for the result and
    no element before it does, the rendered extension of that element is
    returned; [null] is returned exactly when no element of the list
    qualifies. *)
Theorem find_first_match (elements : list ReactNode) (result : Result) :
  (∀ i element,
     elements !! i = Some element →
     qualifies result element = true →
     (∀ j other, elements !! j = Some other → j < i →
                 qualifies result other = false) →
     findSearchResultListItemExtensionElement elements result =
     renderedExtension result element) ∧
  (findSearchResultListItemExtensionElement elements result = VNull ↔
   ∀ element, element ∈ elements → qualifies result element = false).
Proof.
  induction elements as [|first elements [IHfirst IHnull]].
  - split; [intros i element Hi; by rewrite lookup_nil in Hi|].
    split; [intros _ element Hin; by apply elem_of_nil in Hin|done].
  - rewrite find_cons. split.
    + intros [|i] element Hi Hq Hbefore; simpl in Hi.
      * injection Hi as ->. by rewrite Hq.
      * rewrite (Hbefore 0 first eq_refl ltac:(lia)).
        apply (IHfirst i); [done..|].
        intros j other Hj Hlt. apply (Hbefore (S j)); [done|lia].
    + destruct (qualifies result first) eqn:Hq.
      * split.
        -- intros Hnull.
           destruct (renderedExtension_element result first Hq) as [p Hp].
           congruence.
        -- intros Hnone. rewrite (Hnone first) in Hq; [done|].
           apply elem_of_cons; by left.
      * rewrite IHnull. split.
        -- intros Hnone element [->|Hin]%elem_of_cons; auto.
        -- intros Hnone element Hin. apply Hnone, elem_of_cons. by right.
Qed.

(** C6. An element of an extension made by
    [createSearchResultListItemExtension] is rendered for exactly the
    results its predicate accepts, through the component given in the
    options; without a predicate in the options every result is accepted. *)
Theorem extension_renders_accepted_results
    (options : SearchResultListItemExtensionOptions)
    (key : option string) (props : Props) :
  let extension := createSearchResultListItemExtension options in
  let element := VElement (Comp extension) key props in
  getComponentData element SEARCH_RESULT_LIST_ITEM_EXTENSION =
    Some (MkExtensionData (opt_component options)
            (Some (effectivePredicate options))) ∧
  (∀ result,
     findSearchResultListItemExtensionElement [element] result =
     if effectivePredicate options result
     then renderExtension
            (MkExtensionData (opt_component options)
               (Some (effectivePredicate options)))
            props result
     else VNull) ∧
  (∀ results : list Result,
     filter (λ r, qualifies r element = true) results =
     filter (λ r, effectivePredicate options r = true) results) ∧
  (opt_predicate options = None →
   ∀ result, effectivePredicate options result = true ∧
             qualifies result element = true).
Proof.
  intros extension element.
  assert (Hdata : getComponentData element SEARCH_RESULT_LIST_ITEM_EXTENSION =
                  Some (MkExtensionData (opt_component options)
                          (Some (effectivePredicate options)))).
  { unfold element, extension, createSearchResultListItemExtension,
      createReactExtension, effectivePredicate. simpl.
    rewrite lookup_singleton_eq. by destruct (opt_predicate options). }
  assert (Hq : ∀ r, qualifies r element = effectivePredicate options r).
  { intros r. unfold qualifies. by rewrite Hdata. }
  split_and!.
  - done.
  - intros result. rewrite find_cons, Hq.
    destruct (effectivePredicate options result); [|done].
    by apply renderedExtension_data.
  - intros results. induction results as [|r results IH]; [done|].
    rewrite !filter_cons, IH.
    rewrite <- (Hq r).
    destruct (decide (qualifies r element = true)); done.
  - intros Hnone result. rewrite Hq.
    unfold effectivePredicate. by rewrite Hnone.
Qed.

(** C8. The render function of [useSearchResultListItemExtensionRenderer]
    never returns [null] (nor [undefined]): it returns an element, and when
    no extension element matches the result this element is a
    [DefaultResultListItem] with the result's rank, highlight and
    document. *)
Theorem renderer_never_null
    (selectByComponentData : ReactNode → string → list ReactNode)
    (children : ReactNode) (result : Result) :
  let render :=
    useSearchResultListItemExtensionRenderer selectByComponentData children in
  let elements :=
    useSearchResultListItemExtensionElements selectByComponentData children in
  render result ≠ VNull ∧
  render result ≠ VUndefined ∧
  isValidElement (render result) = true ∧
  (findSearchResultListItemExtensionElement elements result = VNull →
   render result = defaultListItem result).
Proof.
  intros render elements.
  unfold render, useSearchResultListItemExtensionRenderer.
  fold elements.
  destruct (find_null_or_element elements result) as [-> | [p ->]]; simpl.
  - by split_and!.
  - by split_and!.
Qed.

(** ** [SearchResult.tsx] *)

(** C2. [SearchResultState] renders [SearchResultApi] with the given query
    when the [query] prop is defined and [SearchResultContext] when it is
    absent; both receive the same child render function.  The former calls
    that function with the state of the API request, the latter with the
    result of the ambient search context. *)
Theorem SearchResultState_selects_source (props : SearchResultStateProps) :
  (∀ query,
     sr_query props = Some query →
     SearchResultState props =
     VElement (Comp SearchResultApiC) None
       {[ "children" := VStateFn (sr_children props);
          "query" := VQuery query ]}) ∧
  (sr_query props = None →
   SearchResultState props =
   VElement (Comp SearchResultContextC) None
     {[ "children" := VStateFn (sr_children props) ]}) ∧
  (∀ context,
     SearchResultContext context (sr_children props) =
     sr_children props (result context)) ∧
  (∀ h query,
     (SearchResultApi h query (sr_children props)).1.1 =
     sr_children props (asyncState h)).
Proof.
  unfold SearchResultState, jsx, withChildren.
  split_and!.
  - intros query ->. f_equal.
  - intros ->. f_equal.
  - done.
  - intros h query. unfold SearchResultApi.
    by destruct (depsChanged h (address query)).
Qed.

Lemma run_step (events : list Event) (h : UseAsync) (t : Trace) :
  length (queried (fold_left step events (h, t)).2) =
  length (queried t) + queryChanges (lastDeps h) events.
Proof.
  revert h t. induction events as [|e events IH]; intros h t; simpl.
  - lia.
  - destruct e as [query children|callId o]; simpl.
    + unfold SearchResultApi, depsChanged.
      destruct (lastDeps h) as [d|] eqn:Hdeps; simpl.
      * destruct (Nat.eqb d (address query)) eqn:Heq; simpl.
        -- rewrite IH. simpl. rewrite Hdeps, length_app. simpl.
           apply Nat.eqb_eq in Heq. subst d. lia.
        -- rewrite IH. simpl. rewrite length_app. simpl. lia.
      * rewrite IH. simpl. rewrite length_app. simpl. lia.
    + rewrite IH. unfold settle.
      by destruct (Nat.eqb callId (lastCallId h)).
Qed.

Lemma run_fixed (a : nat) (events : list Event) (h : UseAsync) (t : Trace) :
  Forall (keepsQuery a) events →
  lastDeps h = Some a →
  queried (fold_left step events (h, t)).2 = queried t.
Proof.
  intros Hfixed. revert h t.
  induction Hfixed as [|e events He _ IH]; intros h t Hdeps; [done|].
  destruct e as [query children|callId o]; simpl in *.
  - unfold SearchResultApi, depsChanged.
    rewrite Hdeps, He, Nat.eqb_refl. simpl.
    rewrite IH by done. simpl. apply app_nil_r.
  - rewrite IH; [done|].
    unfold settle. by destruct (Nat.eqb callId (lastCallId h)).
Qed.

(** C4. Over any history of a mounted [SearchResultApi], the number of calls
    to [searchApi.query] is the number of renders at which the [query] prop
    changed (the first render included); in particular any history in which
    the prop stays one fixed object makes exactly one call.  Every render
    returns the child render function applied to the current
    loading / error / value state, as it is. *)
Theorem SearchResultApi_one_call_per_change (events : list Event) :
  length (queried (run events).2) = queryChanges None events ∧
  (∀ query children rest,
     events = Render query children :: rest →
     Forall (keepsQuery (address query)) rest →
     queried (run events).2 = [(1, queryWithDefaults (contents query))]) ∧
  (∀ h query children,
     (SearchResultApi h query children).1.1 = children (asyncState h)).
Proof.
  split_and!.
  - unfold run. by rewrite run_step.
  - intros query children rest -> Hfixed.
    unfold run. simpl.
    by rewrite (run_fixed (address query)).
  - intros h query children. unfold SearchResultApi.
    by destruct (depsChanged h (address query)).
Qed.

(** C9. The argument of every call [SearchResultApi] makes to the search
    API is the query prop with its missing [term], [types] and [filters]
    replaced by the empty string, the empty list and the empty object; the
    fields that are present and all other fields are passed unchanged. *)
Theorem SearchResultApi_query_defaults
    (h : UseAsync) (query : QueryProp) (children : RenderState) :
  let sent := queryWithDefaults (contents query) in
  (SearchResultApi h query children).2 =
    (if depsChanged h (address query)
     then [(S (lastCallId h), sent)] else []) ∧
  q_term sent =
    match term (contents query) with Some t => t | None => "" end ∧
  q_types sent =
    match types (contents query) with Some ts => ts | None => [] end ∧
  q_filters sent =
    match filters (contents query) with Some fs => fs | None => [] end ∧
  q_pageCursor sent = pageCursor (contents query) ∧
  q_extraFields sent = extraFields (contents query).
Proof.
  intros sent. split_and!; try reflexivity.
  unfold SearchResultApi.
  by destruct (depsChanged h (address query)).
Qed.

(** The render function of [SearchResultComponent] does surface the error. *)
Lemma SearchResultComponent_surfaces_error
    (selectByComponentData : ReactNode → string → list ReactNode)
    (props : SearchResultProps) (state : AsyncState SearchResultSet)
    (err : Error) :
  loading state = false →
  error state = Some err →
  SearchResultComponent_render selectByComponentData props state =
  VElement (Comp ResponseErrorPanel) None
    {[ "title" := VString "Error encountered while fetching search results";
       "error" := VError err ]}.
Proof.
  intros Hloading Herror. unfold SearchResultComponent_render.
  by rewrite Hloading, Herror.
Qed.

Lemma SearchResultGroupLayout_progress_or_list
    (classes : Classes) (anchorEl : option string)
    (props : SearchResultGroupLayoutProps) :
  SearchResultGroupLayout classes anchorEl props =
    VElement (Comp Progress) None ∅ ∨
  ∃ p, SearchResultGroupLayout classes anchorEl props =
       VElement (Comp List_) None p.
Proof.
  unfold SearchResultGroupLayout.
  destruct (default false (gl_loading props)); [by left|].
  right. unfold jsx at 1. eauto.
Qed.

(** C3, at [SearchResultGroupLayout]: the layout never returns the error
    panel.  Its result does not depend on the [error] prop at all, and with
    an error and no loading flag it is the list of results. *)
Theorem SearchResultGroupLayout_drops_error
    (classes : Classes) (anchorEl : option string) :
  (∀ props err,
     SearchResultGroupLayout classes anchorEl props ≠ errorPanel err) ∧
  (∀ props err,
     SearchResultGroupLayout classes anchorEl (withError props err) =
     SearchResultGroupLayout classes anchorEl props) ∧
  (∃ p, SearchResultGroupLayout classes anchorEl failingLayoutProps =
        VElement (Comp List_) None p) ∧
  gl_error failingLayoutProps = Some fetchFailed ∧
  gl_loading failingLayoutProps = Some false.
Proof.
  split_and!; try reflexivity.
  - intros props err Heq.
    destruct (SearchResultGroupLayout_progress_or_list classes anchorEl props)
      as [Hp | [p Hp]]; rewrite Hp in Heq; discriminate Heq.
  - unfold SearchResultGroupLayout, jsx at 1. eauto.
Qed.

(** ** [SearchResultGroup.tsx] *)

Lemma stringifyField_strings encode (key : string) (ts : list string) :
  stringifyField encode key (Some (JArray (JString <$> ts))) =
  (λ t, encode (key +:+ "[]") +:+ "=" +:+ encode t) <$> ts.
Proof.
  unfold stringifyField.
  induction ts as [|t ts IH]; [done|].
  simpl in *. f_equal. exact IH.
Qed.

(** C5. The "See all" link of [SearchResultGroup] is [/search?] followed by
    the pairs of [term] (under the key [query]), [types], [filters] and
    [pageCursor], in this order and joined by [&]; a field that is undefined
    contributes no pair, and the link does not depend on any other field of
    the query. *)
Theorem to_serializes_query_fields
    (encode : string → string) (query : option PartialSearchQuery) :
  to encode query =
    "/search?" +:+
    String.concat "&"
      (stringifyField encode "query" (JString <$> (query ≫= term)) ++
       stringifyField encode "types"
         ((λ ts, JArray (JString <$> ts)) <$> (query ≫= types)) ++
       stringifyField encode "filters" (JObject <$> (query ≫= filters)) ++
       stringifyField encode "pageCursor"
         (JString <$> (query ≫= pageCursor)))%list ∧
  (∀ key, stringifyField encode key None = []) ∧
  (∀ key s,
     stringifyField encode key (Some (JString s)) =
     [encode key +:+ "=" +:+ encode s]) ∧
  (∀ key ts,
     stringifyField encode key (Some (JArray (JString <$> ts))) =
     (λ t, encode (key +:+ "[]") +:+ "=" +:+ encode t) <$> ts) ∧
  (∀ q other,
     to encode
       (Some {| term := term q; types := types q; filters := filters q;
                pageCursor := pageCursor q; extraFields := other |}) =
     to encode (Some q)) ∧
  to encode None = "/search?" ∧
  to encode
    (Some {| term := None; types := None; filters := None;
             pageCursor := None; extraFields := [] |}) = "/search?".
Proof.
  split_and!; try reflexivity.
  - unfold to, stringify, linkQuery. simpl. by rewrite app_nil_r.
  - apply stringifyField_strings.
Qed.

(** C10. With [disableRenderingWithNoResults] set, the render function of
    [SearchResultGroup] returns [null] for every state whose result set is
    absent or empty, whatever its loading and error flags: so it does in the
    initial loading state and after a failed request. *)
Theorem SearchResultGroup_renders_nothing_without_results
    (encode : string → string)
    (selectByComponentData : ReactNode → string → list ReactNode)
    (props : SearchResultGroupProps) :
  gp_disableRenderingWithNoResults props = Some true →
  (∀ state,
     value state = None ∨ (∃ v, value state = Some v ∧ results v = []) →
     SearchResultGroup_render encode selectByComponentData props state =
     VNull) ∧
  SearchResultGroup_render encode selectByComponentData props
    (asyncState useAsyncInitial) = VNull ∧
  (∀ err,
     SearchResultGroup_render encode selectByComponentData props
       (settledState (Rejected err)) = VNull).
Proof.
  intros Hflag.
  assert (Hnull : ∀ state, hasResults (value state) = false →
            SearchResultGroup_render encode selectByComponentData props state
            = VNull).
  { intros state Hno. unfold SearchResultGroup_render.
    by rewrite Hno, Hflag. }
  split_and!.
  - intros state [Hnone | (v & Hsome & Hempty)]; apply Hnull.
    + by rewrite Hnone.
    + rewrite Hsome. simpl. by rewrite Hempty.
  - by apply Hnull.
  - intros err. by apply Hnull.
Qed.

(** ** The Azure Functions overview widget *)

Lemma truthy_annotation (key : string) (entity : option Entity) :
  from_option truthyString false (isAzureFunctionsAvailable key entity) = true
  ↔ annotated key entity.
Proof.
  unfold annotated, isAzureFunctionsAvailable, truthyString. split.
  - destruct entity as [e|]; simpl; [|done].
    destruct (annotations (metadata e)) as [anns|] eqn:Hanns; simpl; [|done].
    destruct (anns !! key) as [v|] eqn:Hv; simpl; [|done].
    intros Hne. exists e, anns, v. split_and!; try done.
    intros ->. done.
  - intros (e & anns & v & -> & Hanns & Hv & Hne). simpl.
    rewrite Hanns. simpl. rewrite Hv. simpl.
    destruct (String.eqb_spec v ""); done.
Qed.

(** C7. [AzureFunctionsOverviewWidget] renders the missing-annotation empty
    state if and only if the entity has no non-empty annotation under the
    Azure Functions key; otherwise it renders the overview of that entity
    inside an error boundary. *)
Theorem AzureFunctionsOverviewWidget_annotation
    (AZURE_FUNCTIONS_ANNOTATION : string) (entity : option Entity) :
  (AzureFunctionsOverviewWidget AZURE_FUNCTIONS_ANNOTATION entity =
   VElement (Comp MissingAnnotationEmptyState) None
     {[ "annotation" := VString AZURE_FUNCTIONS_ANNOTATION ]}
   ↔ ¬ annotated AZURE_FUNCTIONS_ANNOTATION entity) ∧
  (annotated AZURE_FUNCTIONS_ANNOTATION entity →
   AzureFunctionsOverviewWidget AZURE_FUNCTIONS_ANNOTATION entity =
   VElement (Comp ErrorBoundary) None
     {[ "children" :=
          VElement (Comp AzureFunctionsOverviewC) None
            {[ "entity" := optValue VEntity entity ]} ]}).
Proof.
  pose proof (truthy_annotation AZURE_FUNCTIONS_ANNOTATION entity) as Htruthy.
  unfold AzureFunctionsOverviewWidget.
  destruct (from_option truthyString false
              (isAzureFunctionsAvailable AZURE_FUNCTIONS_ANNOTATION entity));
    simpl.
  - split.
    + split; [discriminate|]. intros Hno. destruct Hno. by apply Htruthy.
    + intros _. reflexivity.
  - split.
    + split; [|reflexivity]. intros _ Hyes. apply Htruthy in Hyes. done.
    + intros Hyes. apply Htruthy in Hyes. done.
Qed.

(** ** Worked instances *)

Example find_docs_result :
  findSearchResultListItemExtensionElement extensionChildren docsResult =
  VElement (Host "div") None
    {[ "role" := VString "button";
       "tabIndex" := VNumber 0;
       "onClick" := VHandler "open";
       "onKeyDown" := VUndefined;
       "children" :=
         VElement (Comp (imported "TechDocsItem")) None
           {[ "rank" := VNumber 2;
              "highlight" := VUndefined;
              "result" := VDocument (document docsResult) ]} ]}.
Proof. vm_compute. reflexivity. Qed.

Example find_catalog_result :
  findSearchResultListItemExtensionElement extensionChildren catalogResult =
  VElement (Host "div") None
    {[ "role" := VString "button";
       "tabIndex" := VNumber 0;
       "onClick" := VUndefined;
       "onKeyDown" := VUndefined;
       "children" :=
         VElement (Comp (imported "CatchAllItem")) None
           {[ "rank" := VNumber 1;
              "highlight" := VUndefined;
              "result" := VDocument (document catalogResult);
              "lineClamp" := VNumber 3 ]} ]}.
Proof. vm_compute. reflexivity. Qed.

Example find_without_extensions :
  findSearchResultListItemExtensionElement
    [VString "plain text"; jsx (Host "span") ∅ [];
     jsx (Comp techDocsExtension) ∅ []]
    catalogResult = VNull.
Proof. vm_compute. reflexivity. Qed.

Example to_example :
  to id (Some {| term := Some "pet";
                 types := Some ["software-catalog"; "techdocs"];
                 filters := Some [("kind", Some (JString "API"));
                                  ("owner", None);
                                  ("tags", Some (JArray [JString "a"; JNull]))];
                 pageCursor := None;
                 extraFields := [("pageLimit", JNumber 5)] |}) =
  "/search?query=pet&types[]=software-catalog&types[]=techdocs&filters[kind]=API&filters[tags][]=a&filters[tags][]=".
Proof. vm_compute. reflexivity. Qed.

Example run_example :
  let q1 := {| address := 1;
               contents := {| term := Some "pet"; types := None;
                              filters := None; pageCursor := None;
                              extraFields := [] |} |} in
  let q2 := {| address := 2; contents := contents q1 |} in
  let show : RenderState := λ s, VBool (loading s) in
  let empty := {| results := []; nextPageCursor := None;
                  previousPageCursor := None |} in
  (run [Render q1 show; Render q1 show; Settle 1 (Resolved empty);
        Render q1 show; Render q2 show; Render q2 show]).2 =
  {| rendered := [VBool true; VBool true; VBool false; VBool false;
                  VBool true];
     queried := [(1, queryWithDefaults (contents q1));
                 (2, queryWithDefaults (contents q1))] |}.
Proof. vm_compute. reflexivity. Qed.

(** An instance of C10: the group of [hiddenGroupProps] renders nothing while
    its first request is loading. *)
Lemma SearchResultGroup_renders_nothing_witness :
  gp_disableRenderingWithNoResults hiddenGroupProps = Some true ∧
  SearchResultGroup_render id (λ _ _, []) hiddenGroupProps
    {| loading := true; error := None; value := None |} = VNull.
Proof.
  split; [reflexivity|].
  apply (proj1 (SearchResultGroup_renders_nothing_without_results
                  id (λ _ _, []) hiddenGroupProps eq_refl)).
  left. reflexivity.
Defined.

(** An instance of C1: the TechDocs extension is the first of
    [extensionChildren] to accept [docsResult]. *)
Lemma find_first_match_witness :
  findSearchResultListItemExtensionElement extensionChildren docsResult =
  renderedExtension docsResult
    (jsx (Comp techDocsExtension) {[ "onClick" := VHandler "open" ]} []).
Proof.
  apply (proj1 (find_first_match extensionChildren docsResult) 2).
  - reflexivity.
  - vm_compute. reflexivity.
  - intros [|[|j]] other Hj Hlt; simpl in Hj.
    + injection Hj as <-. reflexivity.
    + injection Hj as <-. reflexivity.
    + lia.
Defined.

(** An instance of C2: with a query, the results come from the search API. *)
Lemma SearchResultState_selects_source_witness :
  SearchResultState {| sr_query := Some petQuery; sr_children := showLoading |} =
  VElement (Comp SearchResultApiC) None
    {[ "children" := VStateFn showLoading; "query" := VQuery petQuery ]}.
Proof.
  apply (proj1 (SearchResultState_selects_source
                  {| sr_query := Some petQuery;
                     sr_children := showLoading |})).
  reflexivity.
Defined.

(** An instance of C4: three renders with one query object and a settled
    call in between make one call. *)
Lemma SearchResultApi_one_call_witness :
  queried
    (run [Render petQueryProp showLoading;
          Render petQueryProp showLoading;
          Settle 1 (Rejected fetchFailed);
          Render petQueryProp showLoading]).2 =
  [(1, queryWithDefaults petQuery)].
Proof.
  apply (proj1 (proj2 (SearchResultApi_one_call_per_change _))
           petQueryProp showLoading
           [Render petQueryProp showLoading;
            Settle 1 (Rejected fetchFailed);
            Render petQueryProp showLoading]).
  - reflexivity.
  - repeat constructor.
Defined.

(** An instance of C7: an annotated entity gets the overview. *)
Lemma AzureFunctionsOverviewWidget_annotation_witness :
  AzureFunctionsOverviewWidget "portal.azure.com/functions-name"
    (Some functionsEntity) =
  VElement (Comp ErrorBoundary) None
    {[ "children" :=
         VElement (Comp AzureFunctionsOverviewC) None
           {[ "entity" := VEntity functionsEntity ]} ]}.
Proof.
  apply (proj2 (AzureFunctionsOverviewWidget_annotation
                  "portal.azure.com/functions-name" (Some functionsEntity))).
  exists functionsEntity,
    {[ "portal.azure.com/functions-name" := "petstore-func" ]},
    "petstore-func".
  split_and!; [reflexivity | reflexivity | reflexivity | discriminate].
Defined.

(** An instance of C8: without extension elements a result is rendered by
    the default list item. *)
Lemma renderer_never_null_witness :
  useSearchResultListItemExtensionRenderer (λ _ _, []) VUndefined
    catalogResult =
  defaultListItem catalogResult.
Proof.
  apply (proj2 (proj2 (proj2 (renderer_never_null (λ _ _, []) VUndefined
                                catalogResult)))).
  reflexivity.
Defined.

(** * Further properties *)

(** ** [extension.tsx] *)

(** X1. Searching a concatenation searches the first list and, only when it
    holds no match, the second one: elements behind a match never change the
    result. *)
Theorem find_app (l1 l2 : list ReactNode) (result : Result) :
  findSearchResultListItemExtensionElement (l1 ++ l2) result =
  if isValidElement (findSearchResultListItemExtensionElement l1 result)
  then findSearchResultListItemExtensionElement l1 result
  else findSearchResultListItemExtensionElement l2 result.
Proof.
  induction l1 as [|element l1 IH]; [done|].
  rewrite <- app_comm_cons, !find_cons.
  destruct (qualifies result element) eqn:Hq; [|exact IH].
  destruct (renderedExtension_element result element Hq) as [p ->].
  reflexivity.
Qed.

(** X2. Elements that do not qualify for the result (text, host elements,
    components without the extension data, extensions whose predicate
    rejects it) can be removed from, or added to, the list without changing
    what is returned. *)
Theorem find_filter (elements : list ReactNode) (result : Result) :
  findSearchResultListItemExtensionElement
    (filter (λ e, qualifies result e = true) elements) result =
  findSearchResultListItemExtensionElement elements result.
Proof.
  induction elements as [|element elements IH]; [done|].
  rewrite filter_cons. rewrite (find_cons element elements).
  destruct (decide (qualifies result element = true)) as [Hq|Hq].
  - by rewrite find_cons, Hq.
  - apply not_true_is_false in Hq. by rewrite Hq.
Qed.

(** X3. In a rendered extension the click and key handlers of the extension
    element go to the wrapping [div] and are never passed to the extension's
    component; every other prop of the element is passed on and wins over
    the [rank], [highlight] and [result] taken from the search result, which
    are used only for the props the element does not set. *)
Theorem renderExtension_props
    (data : ExtensionData) (props : Props) (result : Result) :
  ∃ inner,
    renderExtension data props result =
    VElement (Host "div") None
      (<["children" := VElement (Comp (component data)) None inner]>
       {[ "role" := VString "button";
          "tabIndex" := VNumber 0;
          "onClick" := getProp props "onClick";
          "onKeyDown" := getProp props "onKeyDown" ]}) ∧
    inner !! "onClick" = None ∧
    inner !! "onKeyDown" = None ∧
    (∀ k v, k ≠ "onClick" → k ≠ "onKeyDown" →
            props !! k = Some v → inner !! k = Some v) ∧
    (props !! "rank" = None →
     inner !! "rank" = Some (optValue VNumber (rank result))) ∧
    (props !! "highlight" = None →
     inner !! "highlight" = Some (optValue VHighlight (highlight result))) ∧
    (props !! "result" = None →
     inner !! "result" = Some (VDocument (document result))) ∧
    (∀ k, k ≠ "rank" → k ≠ "highlight" → k ≠ "result" →
          props !! k = None → inner !! k = None).
Proof.
  exists (delete "onKeyDown" (delete "onClick" props) ∪
          {[ "rank" := optValue VNumber (rank result);
             "highlight" := optValue VHighlight (highlight result);
             "result" := VDocument (document result) ]}).
  split; [reflexivity|].
  split_and!.
  - apply lookup_union_None. split; [|done].
    rewrite lookup_delete_ne by done. apply lookup_delete_eq.
  - apply lookup_union_None. split; [|done]. apply lookup_delete_eq.
  - intros k v Hc Hk Hv. apply lookup_union_Some_l.
    by rewrite !lookup_delete_ne.
  - intros Hnone. rewrite lookup_union_r; [done|].
    by rewrite !lookup_delete_ne.
  - intros Hnone. rewrite lookup_union_r; [done|].
    by rewrite !lookup_delete_ne.
  - intros Hnone. rewrite lookup_union_r; [done|].
    by rewrite !lookup_delete_ne.
  - intros k Hrank Hhighlight Hresult Hnone.
    apply lookup_union_None. split.
    + destruct (decide (k = "onKeyDown")) as [->|]; [apply lookup_delete_eq|].
      rewrite lookup_delete_ne by done.
      destruct (decide (k = "onClick")) as [->|]; [apply lookup_delete_eq|].
      by rewrite lookup_delete_ne.
    + by simplify_map_eq.
Qed.

(** X4. An extension created without a predicate that comes first in the
    list takes every result: whatever follows it is never consulted. *)
Theorem catch_all_first
    (options : SearchResultListItemExtensionOptions)
    (key : option string) (props : Props)
    (others : list ReactNode) (result : Result) :
  opt_predicate options = None →
  let element :=
    VElement (Comp (createSearchResultListItemExtension options)) key props in
  findSearchResultListItemExtensionElement (element :: others) result =
  findSearchResultListItemExtensionElement [element] result ∧
  ∃ inner,
    propsOf (findSearchResultListItemExtensionElement (element :: others)
               result) !! "children" =
    Some (VElement (Comp (opt_component options)) None inner).
Proof.
  intros Hnone element.
  assert (Hq : qualifies result element = true).
  { unfold qualifies, element, createSearchResultListItemExtension,
      createReactExtension, getComponentData, callPredicate. simpl.
    rewrite lookup_singleton_eq. simpl. by rewrite Hnone. }
  rewrite !find_cons, Hq. split; [done|].
  unfold element, renderedExtension, createSearchResultListItemExtension,
    createReactExtension, getComponentData. simpl.
  rewrite lookup_singleton_eq.
  destruct (renderExtension_props
              (MkExtensionData (opt_component options)
                 (Some (default (λ _, true) (opt_predicate options))))
              props result) as (inner & -> & _).
  exists inner. simpl. apply lookup_insert_eq.
Qed.

(** An instance of X4 on the sample extensions. *)
Lemma catch_all_first_witness :
  findSearchResultListItemExtensionElement
    (jsx (Comp catchAllExtension) ∅ [] ::
     [jsx (Comp techDocsExtension) ∅ []]) docsResult =
  findSearchResultListItemExtensionElement
    [jsx (Comp catchAllExtension) ∅ []] docsResult.
Proof.
  apply (proj1 (catch_all_first
                  {| opt_name := "CatchAllSearchResultListItem";
                     opt_component := imported "CatchAllItem";
                     opt_predicate := None |}
                  None ∅ [jsx (Comp techDocsExtension) ∅ []] docsResult
                  eq_refl)).
Defined.

(** ** [SearchResult.tsx] *)





(** X7. The answers a mounted [SearchResultApi] gets never cause a call:
    the calls it makes are those of the same history with every settled
    call left out, so a failed request is not repeated and nothing is
    re-requested when a response arrives. *)
Theorem SearchResultApi_calls_ignore_answers (events : list Event) :
  queried (run events).2 = queried (run (filter isRender events)).2.
Proof.
  unfold run.
  assert (H : ∀ h h' t t',
    lastDeps h = lastDeps h' → lastCallId h = lastCallId h' →
    queried t = queried t' →
    queried (fold_left step events (h, t)).2 =
    queried (fold_left step (filter isRender events) (h', t')).2).
  { induction events as [|e events IH]; intros h h' t t' Hd Hc Hq; [done|].
    destruct e as [query children|callId o].
    - rewrite filter_cons_True by done. simpl.
      unfold SearchResultApi, depsChanged. rewrite <- Hd, <- Hc.
      destruct (match lastDeps h with
                | Some d => negb (Nat.eqb d (address query))
                | None => true
                end); apply IH; simpl; try done; by rewrite Hq.
    - rewrite filter_cons_False by (simpl; auto). simpl.
      apply IH; try done; unfold settle;
        by destruct (Nat.eqb callId (lastCallId h)). }
  by apply H.
Qed.

(** ** [SearchResultGroup.tsx] *)

Lemma SearchResultGroup_render_cases
    (encode : string → string)
    (selectByComponentData : ReactNode → string → list ReactNode)
    (props : SearchResultGroupProps) (state : AsyncState SearchResultSet) :
  (gp_disableRenderingWithNoResults props = Some true ∧
   hasResults (value state) = false ∧
   SearchResultGroup_render encode selectByComponentData props state = VNull)
  ∨
  ((gp_disableRenderingWithNoResults props ≠ Some true ∨
    hasResults (value state) = true) ∧
   SearchResultGroup_render encode selectByComponentData props state =
   VElement (Comp SearchResultGroupLayoutC) None
     (<["renderResultItem" :=
          VRenderItemFn
            (default
               (λ r _ _,
                  useSearchResultListItemExtensionRenderer
                    selectByComponentData (gp_children props) r)
               (gp_renderResultItem props))]>
      (<["resultItems" :=
           optValue (λ v, VArray (VResult <$> results v)) (value state)]>
       (<["filterFields" :=
            VArray (VString <$>
                      (fst <$> default [] (gp_query props ≫= filters)))]>
        (<["linkProps" :=
             VObject (default ∅ (gp_linkProps props) ∪
                      {[ "to" := VString (to encode (gp_query props)) ]})]>
         (<["error" := optValue VError (error state)]>
          (<["loading" := VBool (loading state)]> (gp_rest props)))))))).
Proof.
  unfold SearchResultGroup_render.
  destruct (hasResults (value state)); simpl.
  - right. split; [by right | reflexivity].
  - destruct (gp_disableRenderingWithNoResults props) as [[|]|]; simpl.
    + left. done.
    + right. split; [left; discriminate | reflexivity].
    + right. split; [left; discriminate | reflexivity].
Qed.

(** X8. The render function of [SearchResultGroup] returns [null] in one
    case only, when [disableRenderingWithNoResults] is set and there are no
    results; in every other case, also without results or while loading, it
    returns a [SearchResultGroupLayout] element. *)
Theorem SearchResultGroup_null_iff
    (encode : string → string)
    (selectByComponentData : ReactNode → string → list ReactNode)
    (props : SearchResultGroupProps) (state : AsyncState SearchResultSet) :
  (SearchResultGroup_render encode selectByComponentData props state = VNull
   ↔ gp_disableRenderingWithNoResults props = Some true ∧
     hasResults (value state) = false) ∧
  (SearchResultGroup_render encode selectByComponentData props state ≠ VNull
   → ∃ p, SearchResultGroup_render encode selectByComponentData props state
          = VElement (Comp SearchResultGroupLayoutC) None p).
Proof.
  destruct (SearchResultGroup_render_cases encode selectByComponentData
              props state) as [(Hflag & Hno & ->) | ([Hflag|Hres] & ->)].
  - split; [done|]. intros Hne. by destruct Hne.
  - split; [|eauto]. split; [discriminate|]. intros [Hset _]. by destruct Hflag.
  - split; [|eauto]. split; [discriminate|]. intros [_ Hno]. congruence.
Qed.

(** X9. On the layout element it returns, [SearchResultGroup] always sets
    [loading], [error] and [resultItems] from the fetch state, even when the
    caller's props carry entries of the same name, and passes every other
    prop of the caller through unchanged. *)
Theorem SearchResultGroup_layout_props
    (encode : string → string)
    (selectByComponentData : ReactNode → string → list ReactNode)
    (props : SearchResultGroupProps) (state : AsyncState SearchResultSet)
    (p : Props) :
  SearchResultGroup_render encode selectByComponentData props state =
    VElement (Comp SearchResultGroupLayoutC) None p →
  p !! "loading" = Some (VBool (loading state)) ∧
  p !! "error" = Some (optValue VError (error state)) ∧
  p !! "resultItems" =
    Some (optValue (λ v, VArray (VResult <$> results v)) (value state)) ∧
  p !! "filterFields" =
    Some (VArray (VString <$>
                    (fst <$> default [] (gp_query props ≫= filters)))) ∧
  (∀ k, k ∉ groupLayoutKeys → p !! k = gp_rest props !! k).
Proof.
  intros Hrender.
  destruct (SearchResultGroup_render_cases encode selectByComponentData
              props state) as [(_ & _ & Hnull) | (_ & Helement)].
  { rewrite Hnull in Hrender. discriminate Hrender. }
  rewrite Helement in Hrender. injection Hrender as <-.
  split_and!; try by simplify_map_eq.
  intros k Hk. unfold groupLayoutKeys in Hk.
  rewrite !not_elem_of_cons in Hk.
  destruct Hk as (? & ? & ? & ? & ? & ? & _).
  by rewrite !lookup_insert_ne.
Qed.

(** An instance of X9: a [loading] entry among the caller's props is
    replaced by the flag of the state. *)
Lemma SearchResultGroup_layout_props_witness :
  propsOf (SearchResultGroup_render id (λ _ _, []) linkedGroupProps
             loadedState) !! "loading" = Some (VBool false) ∧
  propsOf (SearchResultGroup_render id (λ _ _, []) linkedGroupProps
             loadedState) !! "title" = Some (VString "Catalog").
Proof.
  destruct (SearchResultGroup_layout_props id (λ _ _, []) linkedGroupProps
              loadedState
              (propsOf (SearchResultGroup_render id (λ _ _, [])
                          linkedGroupProps loadedState))
              eq_refl) as (Hloading & _ & _ & _ & Hrest).
  split; [exact Hloading|].
  rewrite (Hrest "title"); [reflexivity|].
  unfold groupLayoutKeys. rewrite !not_elem_of_cons.
  split_and!; try discriminate. apply not_elem_of_nil.
Defined.

(** X10. The link of the layout element goes to the caller's [linkProps.to]
    when there is one and to the built [/search?...] address otherwise; the
    caller's other link props are kept. *)
Theorem SearchResultGroup_link_target
    (encode : string → string)
    (selectByComponentData : ReactNode → string → list ReactNode)
    (props : SearchResultGroupProps) (state : AsyncState SearchResultSet)
    (p : Props) :
  SearchResultGroup_render encode selectByComponentData props state =
    VElement (Comp SearchResultGroupLayoutC) None p →
  ∃ link,
    p !! "linkProps" = Some (VObject link) ∧
    link !! "to" =
      Some (match gp_linkProps props ≫= (λ lp, lp !! "to") with
            | Some target => target
            | None => VString (to encode (gp_query props))
            end) ∧
    (∀ lp k v, gp_linkProps props = Some lp → lp !! k = Some v →
               link !! k = Some v).
Proof.
  intros Hrender.
  destruct (SearchResultGroup_render_cases encode selectByComponentData
              props state) as [(_ & _ & Hnull) | (_ & Helement)].
  { rewrite Hnull in Hrender. discriminate Hrender. }
  rewrite Helement in Hrender. injection Hrender as <-.
  eexists. split; [by simplify_map_eq|]. split.
  - destruct (gp_linkProps props) as [lp|]; simpl.
    + destruct (lp !! "to") as [target|] eqn:Hto.
      * by apply lookup_union_Some_l.
      * rewrite lookup_union_r by done. apply lookup_singleton_eq.
    + rewrite lookup_union_r by done. apply lookup_singleton_eq.
  - intros lp k v -> Hk. simpl. by apply lookup_union_Some_l.
Qed.

(** An instance of X10: the caller's target replaces the search address. *)
Lemma SearchResultGroup_link_target_witness :
  ∃ link,
    propsOf (SearchResultGroup_render id (λ _ _, []) linkedGroupProps
               loadedState) !! "linkProps" = Some (VObject link) ∧
    link !! "to" = Some (VString "/catalog").
Proof.
  destruct (SearchResultGroup_link_target id (λ _ _, []) linkedGroupProps
              loadedState
              (propsOf (SearchResultGroup_render id (λ _ _, [])
                          linkedGroupProps loadedState))
              eq_refl) as (link & Hlink & Hto & _).
  exists link. split; [exact Hlink | exact Hto].
Defined.



(** X12. In the header of a layout that is not loading, the link goes to
    [/search] unless [linkProps] names another target, and shows the [link]
    prop or the default "See all"; without [filterOptions] neither the
    "Add filter" chip nor the menu is rendered, and a filter field is
    rendered as [null] when no [renderFilterField] is given. *)
Theorem SearchResultGroupLayout_header
    (classes : Classes) (anchorEl : option string)
    (props : SearchResultGroupLayoutProps) :
  default false (gl_loading props) = false →
  ∃ heading chip menu fields linkProps body,
    SearchResultGroupLayout classes anchorEl props =
    VElement (Comp List_) None
      (<["children" :=
           VArray
             [VElement (Comp ListSubheader) None
                (<["children" :=
                     VArray [gl_icon props; heading; chip; menu; fields;
                             VElement (Comp Link) None linkProps]]>
                 {[ "className" := VString (listSubheader classes) ]});
              body]]>
       (gl_rest props)) ∧
    linkProps !! "to" =
      Some (default (VString "/search")
              (gl_linkProps props ≫= (λ lp, lp !! "to"))) ∧
    (∀ link, gl_link props = Some link →
             linkProps !! "children" = Some link) ∧
    (gl_filterOptions props = None → chip = VNull ∧ menu = VNull) ∧
    (gl_filterFields props = None → fields = VUndefined) ∧
    (∀ names, gl_filterFields props = Some names →
              gl_renderFilterField props = None →
              fields = VArray (replicate (length names) VNull)).
Proof.
  intros Hloading. unfold SearchResultGroupLayout. rewrite Hloading.
  cbv zeta. unfold jsx at 1 2. unfold withChildren at 1 2.
  eexists _, _, _, _, _, _. split; [reflexivity|].
  split_and!.
  - unfold withChildren. rewrite lookup_insert_ne by done.
    destruct (gl_linkProps props) as [lp|]; simpl.
    + destruct (lp !! "to") as [target|] eqn:Hto; simpl.
      * by apply lookup_union_Some_l.
      * rewrite lookup_union_r by done. by simplify_map_eq.
    + rewrite lookup_union_r by done. by simplify_map_eq.
  - intros link ->. apply lookup_insert_eq.
  - by intros ->.
  - by intros ->.
  - intros names -> ->. f_equal.
    induction names as [|n names IH]; [done|]. simpl. by rewrite IH.
Qed.

(** An instance of X12. *)
Lemma SearchResultGroupLayout_header_witness :
  ∃ linkProps,
    linkProps !! "to" = Some (VString "/search") ∧
    ∃ body heading chip menu fields,
      SearchResultGroupLayout
        {| listSubheader := "a"; listSubheaderName := "b";
           listSubheaderChip := "c"; listSubheaderFilter := "d";
           listSubheaderLink := "e"; listSubheaderLinkIcon := "f" |}
        None failingLayoutProps =
      VElement (Comp List_) None
        {[ "children" :=
             VArray
               [VElement (Comp ListSubheader) None
                  (<["children" :=
                       VArray [VNull; heading; chip; menu; fields;
                               VElement (Comp Link) None linkProps]]>
                   {[ "className" := VString "a" ]});
                body] ]}.
Proof.
  destruct (SearchResultGroupLayout_header
              {| listSubheader := "a"; listSubheaderName := "b";
                 listSubheaderChip := "c"; listSubheaderFilter := "d";
                 listSubheaderLink := "e"; listSubheaderLinkIcon := "f" |}
              None failingLayoutProps eq_refl)
    as (heading & chip & menu & fields & linkProps & body & Hlayout & Hto & _).
  exists linkProps. split; [exact Hto|].
  exists body, heading, chip, menu, fields. exact Hlayout.
Defined.

(** X13. An empty [types] list and an empty [filters] object leave no trace
    in the "See all" link: it is the link of the query without them. *)
Theorem to_ignores_empty_collections
    (encode : string → string) (q : PartialSearchQuery) :
  to encode
    (Some {| term := term q; types := Some []; filters := Some [];
             pageCursor := pageCursor q; extraFields := extraFields q |}) =
  to encode
    (Some {| term := term q; types := None; filters := None;
             pageCursor := pageCursor q; extraFields := extraFields q |}) ∧
  (∀ keys : list string,
     to encode
       (Some {| term := term q; types := types q;
                filters := Some ((λ k, (k, None)) <$> keys);
                pageCursor := pageCursor q; extraFields := extraFields q |}) =
     to encode
       (Some {| term := term q; types := types q; filters := None;
                pageCursor := pageCursor q; extraFields := extraFields q |})).
Proof.
  split; [reflexivity|].
  intros keys. unfold to, stringify, linkQuery. simpl.
  do 4 f_equal.
  induction keys as [|k keys IH]; [done|]. exact IH.
Qed.

(** X14. The chip of a filter field receives the props of the layout other
    than [label] and [children], with [className], [variant] and [label]
    always set by the layout; rendered through the text field it receives
    [onDelete] and nothing else of the field's props ([value], [onChange],
    [id], ... are not forwarded), and the text shown is the value, or
    ["None"] when the value is undefined. *)
Theorem SearchResultGroupTextFilterField_chip
    (classes : Classes) (root : string) (props : Props) :
  ∃ layoutProps text chipProps,
    SearchResultGroupTextFilterField root props =
      VElement (Comp SearchResultGroupFilterFieldLayoutC) None layoutProps ∧
    SearchResultGroupFilterFieldLayout classes layoutProps =
      VElement (Comp Chip) None chipProps ∧
    dom chipProps =
      ({[ "onDelete"; "className"; "variant"; "label" ]} : gset string) ∧
    chipProps !! "onDelete" = Some (getProp props "onDelete") ∧
    chipProps !! "variant" = Some (VString "outlined") ∧
    chipProps !! "label" =
      Some (VElement Fragment None
              {[ "children" :=
                   VArray [getProp props "label"; VString ": "; text] ]}) ∧
    propsOf text !! "children" =
      Some (withDefault (getProp props "value") (VString "None")).
Proof.
  eexists _, _, _. split; [reflexivity|].
  split; [reflexivity|].
  unfold withChildren.
  split_and!.
  - repeat (rewrite dom_insert_L || rewrite dom_delete_L ||
            rewrite dom_singleton_L || rewrite dom_empty_L).
    set_solver.
  - by simplify_map_eq.
  - by simplify_map_eq.
  - unfold getProp at 1 3. by simplify_map_eq.
  - unfold jsx, withChildren. by simplify_map_eq.
Qed.

(** X15. The select field always starts its menu with the item "None" of
    value ["none"], followed by the caller's items, and selects the given
    value, or ["none"] when the value is undefined: without a value the
    selected item is the "None" item. *)
Theorem SearchResultGroupSelectFilterField_menu
    (root : string) (props : Props) :
  ∃ layoutProps select,
    SearchResultGroupSelectFilterField root props =
      VElement (Comp SearchResultGroupFilterFieldLayoutC) None layoutProps ∧
    dom layoutProps = ({[ "label"; "onDelete"; "children" ]} : gset string) ∧
    layoutProps !! "children" = Some (VElement (Comp Select) None select) ∧
    select !! "children" =
      Some (VArray [VElement (Comp MenuItem) None
                      {[ "children" := VString "None";
                         "value" := VString "none" ]};
                    getProp props "children"]) ∧
    select !! "value" =
      Some (withDefault (getProp props "value") (VString "none")) ∧
    (props !! "value" = None → select !! "value" = Some (VString "none")).
Proof.
  eexists _, _. split; [reflexivity|].
  unfold withChildren.
  split_and!.
  - repeat (rewrite dom_insert_L || rewrite dom_singleton_L).
    set_solver.
  - by simplify_map_eq.
  - by simplify_map_eq.
  - by simplify_map_eq.
  - intros Hnone. unfold getProp. rewrite Hnone. by simplify_map_eq.
Qed.

(** ** The Azure Functions overview widget *)

(** X16. The widget treats an empty annotation like a missing one, and so an
    entity without annotations or no entity at all; annotations under other
    keys never change which of the two views is shown. *)
Theorem AzureFunctionsOverviewWidget_edges
    (AZURE_FUNCTIONS_ANNOTATION : string) :
  let missing :=
    VElement (Comp MissingAnnotationEmptyState) None
      {[ "annotation" := VString AZURE_FUNCTIONS_ANNOTATION ]} in
  AzureFunctionsOverviewWidget AZURE_FUNCTIONS_ANNOTATION None = missing ∧
  (∀ e, annotations (metadata e) = None →
        AzureFunctionsOverviewWidget AZURE_FUNCTIONS_ANNOTATION (Some e) =
        missing) ∧
  (∀ e anns,
     annotations (metadata e) = Some anns →
     anns !! AZURE_FUNCTIONS_ANNOTATION = Some "" →
     AzureFunctionsOverviewWidget AZURE_FUNCTIONS_ANNOTATION (Some e) =
     missing) ∧
  (∀ entity k v,
     k ≠ AZURE_FUNCTIONS_ANNOTATION →
     (AzureFunctionsOverviewWidget AZURE_FUNCTIONS_ANNOTATION
        (withAnnotation k v entity) = missing
      ↔ AzureFunctionsOverviewWidget AZURE_FUNCTIONS_ANNOTATION entity =
        missing)).
Proof.
  intros missing. split_and!.
  - reflexivity.
  - intros e Hnone. unfold AzureFunctionsOverviewWidget,
      isAzureFunctionsAvailable. simpl. by rewrite Hnone.
  - intros e anns Hanns Hempty. unfold AzureFunctionsOverviewWidget,
      isAzureFunctionsAvailable. simpl. rewrite Hanns. simpl.
    by rewrite Hempty.
  - intros entity k v Hk.
    assert (Hsame :
      isAzureFunctionsAvailable AZURE_FUNCTIONS_ANNOTATION
        (withAnnotation k v entity) =
      isAzureFunctionsAvailable AZURE_FUNCTIONS_ANNOTATION entity).
    { unfold isAzureFunctionsAvailable, withAnnotation.
      destruct entity as [e|]; simpl; [|done].
      destruct (annotations (metadata e)) as [anns|]; simpl; [|done].
      by rewrite lookup_insert_ne. }
    unfold AzureFunctionsOverviewWidget. rewrite Hsame.
    destruct (from_option truthyString false
                (isAzureFunctionsAvailable AZURE_FUNCTIONS_ANNOTATION entity));
      simpl; [|done].
    split; intros Heq; discriminate Heq.
Qed.

(** An instance of X16: the entity with an empty annotation. *)
Lemma AzureFunctionsOverviewWidget_edges_witness :
  AzureFunctionsOverviewWidget "portal.azure.com/functions-name"
    (Some emptyAnnotationEntity) =
  VElement (Comp MissingAnnotationEmptyState) None
    {[ "annotation" := VString "portal.azure.com/functions-name" ]}.
Proof.
  apply (proj1 (proj2 (proj2 (AzureFunctionsOverviewWidget_edges
                                "portal.azure.com/functions-name")))
           emptyAnnotationEntity
           {[ "portal.azure.com/functions-name" := "" ]}).
  - reflexivity.
  - reflexivity.
Defined.

(** ** [extension.tsx], continued *)

Lemma find_list_find (elements : list ReactNode) (result : Result) :
  findSearchResultListItemExtensionElement elements result =
  match list_find (λ e, qualifies result e = true) elements with
  | Some (_, element) => renderedExtension result element
  | None => VNull
  end.
Proof.
  induction elements as [|element elements IH]; [done|].
  rewrite find_cons. cbn [list_find].
  destruct (decide (qualifies result element = true)) as [Hq|Hq].
  - by rewrite Hq.
  - apply not_true_is_false in Hq. rewrite Hq, IH.
    by destruct (list_find _ elements) as [[i e]|].
Qed.

(** X17. What the renderer of [useSearchResultListItemExtensionRenderer]
    returns for a result is decided by the first selected element that
    qualifies for it: the rendered extension of that element when there is
    one, the default list item when there is none.  The default item is
    therefore used only for results no extension accepts. *)
Theorem renderer_dispatch
    (selectByComponentData : ReactNode → string → list ReactNode)
    (children : ReactNode) (result : Result) :
  useSearchResultListItemExtensionRenderer selectByComponentData children
    result =
  match list_find (λ e, qualifies result e = true)
          (useSearchResultListItemExtensionElements selectByComponentData
             children) with
  | Some (_, element) => renderedExtension result element
  | None => defaultListItem result
  end.
Proof.
  unfold useSearchResultListItemExtensionRenderer.
  rewrite find_list_find.
  destruct (list_find _ _) as [[i element]|] eqn:Hfind; [|reflexivity].
  apply list_find_Some in Hfind as (_ & Hq & _).
  by destruct (renderedExtension_element result element Hq) as [p ->].
Qed.
